(** * go-slackbot: the dispatch core of [bot.go]

    A shallow embedding of package [slackbot]'s [bot.go]: the receive loop
    [Run], the reply primitives [Reply], [ReplyPost], [ReplyWithAttachments],
    the typing simulation [Type] with [msgLen], and the identity accessors.

    Conventions.
    - [time.Duration] is an [int64] count of nanoseconds: a [Z] whose
      run-time products are wrapped to 64 bits ([Duration.wrap]); Go's [/]
      on integers truncates toward zero ([Z.quot]).
    - Go strings are byte strings: [string], with [len] = [String.length].
    - The inbound channel [b.RTM.IncomingEvents] is the list of the events
      that arrive; when the list is used up the loop blocks on the receive.
    - What the loop does to the outside is collected in a trace ([Obs]):
      the lines it prints, each call of [Match], each handler call and the
      sends and sleeps the handler performs.
    - The router ([SimpleRouter], [Route], [RouteMatch], [Match]) and the
      context helpers live in other files of the package; they are modelled
      from the specification and marked so. *)

From Stdlib Require Import ZArith String Ascii List Bool Lia.
Import ListNotations.

Local Open Scope string_scope.
Local Open Scope list_scope.
Local Open Scope Z_scope.

(** ** [time.Duration] *)

Module Duration.

(** The value an [int64] holds after an arithmetic result [z]. *)
Definition wrap (z : Z) : Z := (z + 2 ^ 63) mod 2 ^ 64 - 2 ^ 63.

Definition MaxInt64 : Z := 2 ^ 63 - 1.
Definition MinInt64 : Z := - 2 ^ 63.

Definition Nanosecond : Z := 1.
Definition Microsecond : Z := 1000 * Nanosecond.
Definition Millisecond : Z := 1000 * Microsecond.
Definition Second : Z := 1000 * Millisecond.
Definition Minute : Z := 60 * Second.

(** [a * b] on two [time.Duration] values, at run time. *)
Definition mul (a b : Z) : Z := wrap (a * b).

(** [a / b] on two [time.Duration] values, at run time. *)
Definition div (a b : Z) : Z := wrap (Z.quot a b).

End Duration.

(** ** Constants of [bot.go] *)

Definition WithTyping : bool := true.
Definition WithoutTyping : bool := false.

(** [maxTypingSleepMs time.Duration = time.Millisecond * 2000], a constant
    expression, evaluated exactly by the compiler. *)
Definition maxTypingSleepMs : Z := Duration.Millisecond * 2000.

(** The largest length whose product with [time.Minute] fits an [int64]. *)
Definition maxExactLen : Z := 153722867.

(** ** Events of the RTM stream *)

(** [slack.UserDetails], the fields [Run] reads from [ev.Info.User]. *)
Record UserDetails := {
  ID : string;
  Name : string
}.

(** [slack.ConnectedEvent]: [Info.User] and [ConnectionCount]. The client
    library fills [Info] and [Info.User] before it emits the event. *)
Record ConnectedEvent := {
  InfoUser : UserDetails;
  ConnectionCount : Z
}.

(** [slack.MessageEvent], the fields of its embedded [Msg] that the
    package touches: the origin channel, the sender's user ID ([User]),
    the sender's display name ([Username]) and the text. *)
Record MessageEvent := {
  Channel : string;
  User : string;
  Username : string;
  Text : string
}.

(** [msg.Data], by the cases of the type switch in [Run]. A value that
    implements [error] carries its dynamic type's name and [Error()]. *)
Inductive EventData :=
| ConnectedData (ev : ConnectedEvent)
| MessageData (ev : MessageEvent)
| InvalidAuthData
| ErrorData (typeName message : string)
| OtherData (typeName : string).

(** The event kinds of the specification's event union. *)
Inductive EventKind :=
| KindConnected
| KindMessage
| KindInvalidAuth
| KindTransportError
| KindOther.

Definition EventKind_eqb (a b : EventKind) : bool :=
  match a, b with
  | KindConnected, KindConnected
  | KindMessage, KindMessage
  | KindInvalidAuth, KindInvalidAuth
  | KindTransportError, KindTransportError
  | KindOther, KindOther => true
  | _, _ => false
  end.

(** ** Context propagation *)

Inductive ContextKey := BotContextKey | MessageContextKey.

Definition ContextKey_eqb (a b : ContextKey) : bool :=
  match a, b with
  | BotContextKey, BotContextKey
  | MessageContextKey, MessageContextKey => true
  | _, _ => false
  end.

(** What a context binds: the bot handle (seen through its identity
    fields, which do not change while one event is handled) or the
    current message event. *)
Inductive ContextValue :=
| BoundBot (userID userName : string)
| BoundMessage (ev : MessageEvent).

(** Modelled from the spec: [context.Context] as used by the package, an
    append-only chain of key-scoped bindings; the newest binding is first. *)
Definition Context : Type := list (ContextKey * ContextValue).

(** [context.Background()]. *)
Definition Background : Context := [].

Definition WithValue (ctx : Context) (k : ContextKey) (v : ContextValue)
  : Context := (k, v) :: ctx.

Fixpoint CtxValue (ctx : Context) (k : ContextKey) : option ContextValue :=
  match ctx with
  | [] => None
  | (k', v) :: parent =>
      if ContextKey_eqb k k' then Some v else CtxValue parent k
  end.

(** Modelled from the spec: [MessageFromContext], missing from the
    sources at hand; reads back the current-event binding. *)
Definition MessageFromContext (ctx : Context) : option MessageEvent :=
  match CtxValue ctx MessageContextKey with
  | Some (BoundMessage ev) => Some ev
  | _ => None
  end.

(** Modelled from the spec: [AddMessageToContext], missing from the
    sources at hand; extends the context with the current event. *)
Definition AddMessageToContext (ctx : Context) (ev : MessageEvent) : Context :=
  WithValue ctx MessageContextKey (BoundMessage ev).

(** Substring search: the meaning of a pattern without metacharacters
    under search semantics (no anchoring). *)
Fixpoint contains (pat text : string) : bool :=
  match text with
  | EmptyString => String.prefix pat EmptyString
  | String _ rest => String.prefix pat text || contains pat rest
  end.

Section Model.

(** [slack.Attachment] belongs to the client library, and so does its
    rendering [fmt.Sprintf("%#v", m)] for [m []slack.Attachment]. *)
Context {Attachment : Type} (goSyntax : list Attachment -> string).

(** ** Outbound operations *)

(** [slack.PostMessageParameters], the fields the package sets; the
    others keep their zero value. *)
Record PostMessageParameters := {
  AsUser : bool;
  PostUsername : string;
  LinkNames : Z;
  UnfurlLinks : bool;
  UnfurlMedia : bool
}.

Inductive MsgOption :=
| MsgOptionText (text : string) (escape : bool)
| MsgOptionAttachments (attachments : list Attachment).

(** What the bot asks of the connection, plus [time.Sleep]. *)
Inductive Action :=
| SendTypingMessage (channel : string)
| SendOutgoingMessage (text channel : string)
| Sleep (d : Z)
| PostMessage (channel : string) (content : MsgOption)
              (params : PostMessageParameters).

(** ** Router *)

(** [type Handler func(context.Context)]: a handler is known by what it
    makes the bot do. *)
Definition Handler : Type := Context -> list Action.

(** A compiled text matcher. *)
Definition Pattern : Type := string -> bool.

(** Modelled from the spec: [Route], missing from the sources at hand;
    a matcher, an event-kind filter and a handler. *)
Record Route := {
  pattern : Pattern;
  kind : EventKind;
  handler : Handler
}.

(** Modelled from the spec: [RouteMatch], missing from the sources at
    hand; the matched route and its handler. *)
Record RouteMatch := {
  MatchedRoute : Route;
  MatchedHandler : Handler
}.

(** Modelled from the spec: [SimpleRouter], missing from the sources at
    hand; the routes in registration order. *)
Record SimpleRouter := {
  registered : list Route
}.

(** Modelled from the spec: [AddRoute], missing from the sources at
    hand; registers a route at the end of the ordered list. *)
Definition AddRoute (r : SimpleRouter) (p : Pattern) (k : EventKind)
           (h : Handler) : SimpleRouter :=
  {| registered := registered r ++ [ {| pattern := p; kind := k; handler := h |} ] |}.

(** A route accepts a message event when its kind is the event's kind
    and its pattern matches the event's text. *)
Definition routeMatches (r : Route) (ev : MessageEvent) : bool :=
  EventKind_eqb KindMessage (kind r) && pattern r (Text ev).

Fixpoint matchRoutes (rs : list Route) (ev : MessageEvent)
  : option RouteMatch :=
  match rs with
  | [] => None
  | r :: rest =>
      if routeMatches r ev
      then Some {| MatchedRoute := r; MatchedHandler := handler r |}
      else matchRoutes rest ev
  end.

(** Modelled from the spec: [Match] of [SimpleRouter], missing from the
    sources at hand. It tries the routes in registration order against
    the event bound in [ctx]; [Some m] stands for the result [true] with
    the out-parameter filled, [None] for [false] with it left unset. The
    context is handed back as it came. *)
Definition Match (r : SimpleRouter) (ctx : Context)
  : option RouteMatch * Context :=
  match MessageFromContext ctx with
  | Some ev => (matchRoutes (registered r) ev, ctx)
  | None => (None, ctx)
  end.

(** ** The bot *)

(** [type Bot struct]: the embedded [SimpleRouter], [routes],
    [botUserID], [botUserName]. [Client] and [RTM] are handles of the
    client library; what is done through them is an [Action]. *)
Record Bot := {
  router : SimpleRouter;
  routes : list Route;
  botUserID : string;
  botUserName : string
}.

(** [New]: every field but [Client] has its zero value. *)
Definition New (slackToken : string) : Bot :=
  {| router := {| registered := [] |};
     routes := [];
     botUserID := "";
     botUserName := "" |}.

Definition BotUserID (b : Bot) : string := botUserID b.

Definition BotUserName (b : Bot) : string := botUserName b.

Definition setBotID (b : Bot) (ID : string) : Bot :=
  {| router := router b;
     routes := routes b;
     botUserID := ID;
     botUserName := botUserName b |}.

Definition setBotName (b : Bot) (name : string) : Bot :=
  {| router := router b;
     routes := routes b;
     botUserID := botUserID b;
     botUserName := name |}.

(** Modelled from the spec: [AddBotToContext], missing from the sources
    at hand; seeds the context with the bot handle. *)
Definition AddBotToContext (ctx : Context) (b : Bot) : Context :=
  WithValue ctx BotContextKey (BoundBot (botUserID b) (botUserName b)).

(** ** Typing simulation *)

(** The values passed to [Type] as [msg interface{}], by dynamic type:
    [string], [[]slack.Attachment], and some of the others. *)
Inductive Payload :=
| PString (m : string)
| PAttachments (m : list Attachment)
| PNil
| PInt (n : Z)
| PBytes (m : list ascii)
| PStringPtr (m : string)
| PNamedString (typeName m : string)
| PAttachment (m : Attachment)
| PAttachmentPtrs (m : list Attachment).

(** [msgLen]: the named result keeps its zero value in the cases the
    switch does not list. *)
Definition msgLen (msg : Payload) : Z :=
  match msg with
  | PString m => Z.of_nat (String.length m)
  | PAttachments m => Z.of_nat (String.length (goSyntax m))
  | _ => 0
  end.

(** Lines 157-160 of [Type]: the sleep for a measured length. *)
Definition sleepDuration (msgLen : Z) : Z :=
  let sleepDuration :=
    Duration.div (Duration.mul Duration.Minute msgLen) 3000 in
  if sleepDuration >? maxTypingSleepMs
  then maxTypingSleepMs
  else sleepDuration.

(** [Type]: one typing message, then the sleep. *)
Definition Type_ (b : Bot) (evt : MessageEvent) (msg : Payload)
  : list Action :=
  let msgLen := msgLen msg in
  [ SendTypingMessage (Channel evt); Sleep (sleepDuration msgLen) ].

(** ** Reply primitives *)

Definition Reply (b : Bot) (evt : MessageEvent) (msg : string)
           (typing : bool) : list Action :=
  (if typing then Type_ b evt (PString msg) else [])
    ++ [ SendOutgoingMessage msg (Channel evt) ].

Definition ReplyPost (b : Bot) (evt : MessageEvent) (msg : string)
           (typing : bool) : list Action :=
  (if typing then Type_ b evt (PString msg) else [])
    ++ [ PostMessage (Channel evt) (MsgOptionText msg false)
           {| AsUser := true;
              PostUsername := BotUserID b;
              LinkNames := 1;
              UnfurlLinks := true;
              UnfurlMedia := true |} ].

Definition ReplyWithAttachments (b : Bot) (evt : MessageEvent)
           (attachments : list Attachment) (typing : bool) : list Action :=
  (if typing then Type_ b evt (PString "attachment") else [])
    ++ [ PostMessage (Channel evt) (MsgOptionAttachments attachments)
           {| AsUser := true;
              PostUsername := botUserID b;
              LinkNames := 1;
              UnfurlLinks := false;
              UnfurlMedia := false |} ].

(** The sleeps among a run of actions, in order. *)
Fixpoint sleeps (acts : list Action) : list Z :=
  match acts with
  | [] => []
  | Sleep d :: rest => d :: sleeps rest
  | _ :: rest => sleeps rest
  end.

(** ** The receive loop *)

Inductive LogLine :=
| LogConnected (user : UserDetails) (count : Z)
| LogInvalidCredentials
| LogError (typeName message : string).

Inductive Obs :=
| Printf (line : LogLine)
| CallMatch (ctx : Context)
| CallHandler (h : Handler) (ctx : Context)
| Did (a : Action).

(** How one pass through the loop body ends: back to the top of the
    loop, or [break LOOP]. *)
Inductive Flow := ContinueLoop | BreakLoop.

(** The sender test of the [*slack.MessageEvent] case. *)
Definition fromBot (b : Bot) (ev : MessageEvent) : bool :=
  String.eqb (botUserID b) (User ev) || String.eqb (botUserName b) (User ev).

(** The body of the loop for one received [msg]. *)
Definition handleEvent (b : Bot) (msg : EventData)
  : Bot * list Obs * Flow :=
  let ctx := Background in
  let ctx := AddBotToContext ctx b in
  match msg with
  | ConnectedData ev =>
      let out := [ Printf (LogConnected (InfoUser ev) (ConnectionCount ev)) ] in
      let b := setBotID b (ID (InfoUser ev)) in
      let b := setBotName b (Name (InfoUser ev)) in
      (b, out, ContinueLoop)
  | MessageData ev =>
      if fromBot b ev
      then (b, [], ContinueLoop)
      else
        let ctx := AddMessageToContext ctx ev in
        match Match (router b) ctx with
        | (Some m, ctx') =>
            (b,
             CallMatch ctx :: CallHandler (MatchedHandler m) ctx'
               :: map Did (MatchedHandler m ctx'),
             ContinueLoop)
        | (None, _) => (b, [ CallMatch ctx ], ContinueLoop)
        end
  | InvalidAuthData =>
      (b, [ Printf LogInvalidCredentials ], BreakLoop)
  | ErrorData typeName message =>
      (b, [ Printf (LogError typeName message) ], ContinueLoop)
  | OtherData _ =>
      (b, [], ContinueLoop)
  end.

(** Where [Run] stands after the events of a list: the bot, the trace,
    whether the loop has been left, and the events not received. *)
Record RunResult := {
  finalBot : Bot;
  trace : list Obs;
  exited : bool;
  unread : list EventData
}.

Fixpoint Run (b : Bot) (incoming : list EventData) : RunResult :=
  match incoming with
  | [] => {| finalBot := b; trace := []; exited := false; unread := [] |}
  | msg :: rest =>
      match handleEvent b msg with
      | (b', out, BreakLoop) =>
          {| finalBot := b'; trace := out; exited := true; unread := rest |}
      | (b', out, ContinueLoop) =>
          let r := Run b' rest in
          {| finalBot := finalBot r;
             trace := out ++ trace r;
             exited := exited r;
             unread := unread r |}
      end
  end.

(** The calls of [Match] and of handlers in a trace. *)
Definition isRouting (o : Obs) : bool :=
  match o with
  | CallMatch _ | CallHandler _ _ => true
  | _ => false
  end.

Definition routingCalls (t : list Obs) : nat :=
  List.length (filter isRouting t).

Definition isInvalidAuth (msg : EventData) : bool :=
  match msg with InvalidAuthData => true | _ => false end.

Definition isConnected (msg : EventData) : bool :=
  match msg with ConnectedData _ => true | _ => false end.

Definition isMessage (msg : EventData) : bool :=
  match msg with MessageData _ => true | _ => false end.

Definition isCallMatch (o : Obs) : bool :=
  match o with CallMatch _ => true | _ => false end.

Definition isCallHandler (o : Obs) : bool :=
  match o with CallHandler _ _ => true | _ => false end.

(** How often a trace calls [Match], and how often a handler. *)
Definition matchCalls (t : list Obs) : nat :=
  List.length (filter isCallMatch t).

Definition handlerCalls (t : list Obs) : nat :=
  List.length (filter isCallHandler t).

(** The channel an outbound operation is addressed to. *)
Definition actionChannel (a : Action) : option string :=
  match a with
  | SendTypingMessage channel => Some channel
  | SendOutgoingMessage _ channel => Some channel
  | Sleep _ => None
  | PostMessage channel _ _ => Some channel
  end.

End Model.

Arguments MsgOption : clear implicits.
Arguments Action : clear implicits.
Arguments Handler : clear implicits.
Arguments Route : clear implicits.
Arguments RouteMatch : clear implicits.
Arguments SimpleRouter : clear implicits.
Arguments Bot : clear implicits.
Arguments New : clear implicits.
Arguments Payload : clear implicits.
Arguments Obs : clear implicits.
Arguments RunResult : clear implicits.

(** ** Sample data

    A stand-in for the client library's attachment type, reduced to the
    attachment's text, with a serialization that joins the texts. *)

Definition TextAttachment : Type := string.

Definition textSyntax (m : list TextAttachment) : string :=
  String.concat ", " m.

(** [n] bytes of text. *)
Fixpoint filler (n : nat) : string :=
  match n with
  | O => EmptyString
  | S k => String "x" (filler k)
  end.

Definition say (text : string) : Handler TextAttachment :=
  fun ctx =>
    match MessageFromContext ctx with
    | Some evt => [ SendOutgoingMessage text (Channel evt) ]
    | None => []
    end.

(** The routes of the ordering scenario: ["hi"] registered first,
    ["hi there"] second. *)
Definition hiRoute : Route TextAttachment :=
  {| pattern := contains "hi"; kind := KindMessage; handler := say "first" |}.

Definition hiThereRoute : Route TextAttachment :=
  {| pattern := contains "hi there"; kind := KindMessage;
     handler := say "second" |}.

Definition sampleBot : Bot TextAttachment :=
  {| router := AddRoute (AddRoute {| registered := [] |}
                           (pattern hiRoute) (kind hiRoute) (handler hiRoute))
                 (pattern hiThereRoute) (kind hiThereRoute)
                 (handler hiThereRoute);
     routes := [];
     botUserID := "U123";
     botUserName := "bot1" |}.

(** One attachment of 9000 bytes of text. *)
Definition longAttachments : list TextAttachment :=
  [ filler (Z.to_nat 9000) ].

Definition sampleMessage : MessageEvent :=
  {| Channel := "C1"; User := "U999"; Username := "alice";
     Text := "hi there" |}.

Definition sampleConnected : ConnectedEvent :=
  {| InfoUser := {| ID := "U123"; Name := "bot1" |}; ConnectionCount := 1 |}.

Definition reconnected : ConnectedEvent :=
  {| InfoUser := {| ID := "U456"; Name := "bot2" |}; ConnectionCount := 2 |}.

(** The bot before its first connected event, with the two routes. *)
Definition freshBot : Bot TextAttachment :=
  {| router := router sampleBot;
     routes := [];
     botUserID := "";
     botUserName := "" |}.

(** A message sent by the user whose ID is the bot's. *)
Definition selfMessage : MessageEvent :=
  {| Channel := "C1"; User := "U123"; Username := "";
     Text := "hi there" |}.

(** A message of another user who shows the bot's name. *)
Definition namesakeMessage : MessageEvent :=
  {| Channel := "C1"; User := "U999"; Username := "bot1";
     Text := "hi there" |}.

(** * Properties *)

(** ** Arithmetic of [time.Duration] *)

Lemma wrap_in_range (z : Z) :
  Duration.MinInt64 <= z <= Duration.MaxInt64 -> Duration.wrap z = z.
Proof.
  unfold Duration.MinInt64, Duration.MaxInt64, Duration.wrap. intros Hz.
  rewrite Z.mod_small by lia. lia.
Qed.

Lemma wrap_bounds (z : Z) :
  Duration.MinInt64 <= Duration.wrap z <= Duration.MaxInt64.
Proof.
  unfold Duration.MinInt64, Duration.MaxInt64, Duration.wrap.
  pose proof (Z.mod_pos_bound (z + 2 ^ 63) (2 ^ 64) ltac:(lia)). lia.
Qed.

(** Below the overflow, the unclamped value is 20 ms for each byte. *)
Lemma unclamped_exact (n : Z) :
  0 <= n <= maxExactLen ->
  Duration.div (Duration.mul Duration.Minute n) 3000
  = 20 * Duration.Millisecond * n.
Proof.
  unfold maxExactLen. intros Hn.
  unfold Duration.div, Duration.mul.
  rewrite (wrap_in_range (Duration.Minute * n)).
  - replace (Duration.Minute * n) with (20 * Duration.Millisecond * n * 3000)
      by (unfold Duration.Minute, Duration.Second, Duration.Millisecond,
            Duration.Microsecond, Duration.Nanosecond; lia).
    rewrite Z.quot_mul by lia.
    apply wrap_in_range.
    unfold Duration.MinInt64, Duration.MaxInt64, Duration.Millisecond,
      Duration.Microsecond, Duration.Nanosecond. lia.
  - unfold Duration.MinInt64, Duration.MaxInt64, Duration.Minute,
      Duration.Second, Duration.Millisecond, Duration.Microsecond,
      Duration.Nanosecond. lia.
Qed.

(** Below the overflow, [Type] sleeps the smaller of 20 ms for each byte
    and 2000 ms. *)
Lemma sleepDuration_exact (n : Z) :
  0 <= n <= maxExactLen ->
  sleepDuration n = Z.min (20 * Duration.Millisecond * n) maxTypingSleepMs.
Proof.
  intros Hn. unfold sleepDuration. cbv zeta.
  rewrite (unclamped_exact n Hn).
  destruct (Z.gtb_spec (20 * Duration.Millisecond * n) maxTypingSleepMs); lia.
Qed.

(** The cap holds for every length, wrapped or not. *)
Lemma sleepDuration_le_max (n : Z) : sleepDuration n <= maxTypingSleepMs.
Proof.
  unfold sleepDuration. cbv zeta.
  destruct (Z.gtb_spec
              (Duration.div (Duration.mul Duration.Minute n) 3000)
              maxTypingSleepMs); lia.
Qed.

(** Below the overflow, a longer message never sleeps less. *)
Lemma sleepDuration_monotone_in_range (n m : Z) :
  0 <= n -> n <= m -> m <= maxExactLen ->
  0 <= sleepDuration n <= sleepDuration m.
Proof.
  intros H0 Hnm Hm.
  rewrite (sleepDuration_exact n), (sleepDuration_exact m) by lia.
  unfold maxTypingSleepMs, Duration.Millisecond, Duration.Microsecond,
    Duration.Nanosecond. lia.
Qed.

Lemma sleepDuration_empty : sleepDuration (Z.of_nat (String.length "")) = 0.
Proof. reflexivity. Qed.

Section TypingProperties.

Context {Attachment : Type} (goSyntax : list Attachment -> string).

(** [Type] sleeps once, for the duration computed from the measured
    length. *)
Lemma Type_sleeps (b : Bot Attachment) (evt : MessageEvent)
      (msg : Payload Attachment) :
  Type_ goSyntax b evt msg
  = [ SendTypingMessage (Channel evt);
      Sleep (sleepDuration (msgLen goSyntax msg)) ].
Proof. reflexivity. Qed.

(** C3, at the input where the code leaves it: for a payload of length
    153722868 the product [time.Minute * time.Duration(msgLen)] no
    longer fits an [int64] and wraps to a negative duration, so the
    sleep is negative instead of the 2000 ms that 60 s * length / 3000,
    clamped, would give. *)
Theorem sleepDuration_wraps_past_maxExactLen :
  Duration.mul Duration.Minute (maxExactLen + 1) = -9223371993709551616
  /\ sleepDuration (maxExactLen + 1) = -3074457331236517
  /\ Z.min (Duration.Minute * (maxExactLen + 1) / 3000) maxTypingSleepMs
     = 2000 * Duration.Millisecond
  /\ sleepDuration (maxExactLen + 1)
     <> Z.min (Duration.Minute * (maxExactLen + 1) / 3000) maxTypingSleepMs.
Proof. repeat split; vm_compute; congruence. Qed.

(** C6, at the input where the code leaves it: a text of length 100
    sleeps 2000 ms and a text of length 153722868 sleeps less (a
    negative duration), so the delay is not monotone in the length. The
    bound and the value at the empty text do hold
    ([sleepDuration_le_max], [sleepDuration_empty]). *)
Theorem sleepDuration_not_monotone :
  sleepDuration 100 = 2000 * Duration.Millisecond
  /\ sleepDuration (maxExactLen + 1) < sleepDuration 100
  /\ ~ (forall n m : Z, 0 <= n -> n <= m -> sleepDuration n <= sleepDuration m).
Proof.
  split; [ reflexivity | split; [ reflexivity | ] ].
  intros Hmono.
  specialize (Hmono 100 (maxExactLen + 1) ltac:(lia) ltac:(unfold maxExactLen; lia)).
  vm_compute in Hmono. apply Hmono. reflexivity.
Qed.

(** C7: a payload that is neither a [string] nor a [[]slack.Attachment]
    has measured length 0, and [Type] then sleeps for 0, whatever the
    payload holds. *)
Theorem msgLen_unsupported_is_zero (b : Bot Attachment) (evt : MessageEvent)
        (msg : Payload Attachment) :
  (forall m, msg <> PString m) ->
  (forall m, msg <> PAttachments m) ->
  msgLen goSyntax msg = 0
  /\ sleepDuration (msgLen goSyntax msg) = 0
  /\ Type_ goSyntax b evt msg = [ SendTypingMessage (Channel evt); Sleep 0 ].
Proof.
  intros Hs Ha.
  assert (Hlen : msgLen goSyntax msg = 0).
  { destruct msg as [m | m | | | | | | | ]; try reflexivity.
    - exfalso. apply (Hs m). reflexivity.
    - exfalso. apply (Ha m). reflexivity. }
  rewrite Type_sleeps, Hlen. repeat split.
Qed.

(** C4, amended: with typing on, [ReplyWithAttachments] hands [Type] the
    fixed token ["attachment"], so it sleeps the 200 ms of that token's
    10 bytes whatever the attachments are; an attachment list whose
    serialization has length 9000 gives a computed 180000 ms, clamped to
    2000 ms, when it is itself the payload of [Type]. *)
Theorem ReplyWithAttachments_sleeps_for_token (b : Bot Attachment)
        (evt : MessageEvent) (attachments : list Attachment) :
  ReplyWithAttachments goSyntax b evt attachments WithTyping
  = [ SendTypingMessage (Channel evt);
      Sleep (200 * Duration.Millisecond);
      PostMessage (Channel evt) (MsgOptionAttachments attachments)
        {| AsUser := true; PostUsername := botUserID b; LinkNames := 1;
           UnfurlLinks := false; UnfurlMedia := false |} ]
  /\ sleepDuration (Z.of_nat (String.length "attachment"))
     = 200 * Duration.Millisecond
  /\ (Z.of_nat (String.length (goSyntax attachments)) = 9000 ->
      Duration.div (Duration.mul Duration.Minute
                      (msgLen goSyntax (PAttachments attachments))) 3000
      = 180000 * Duration.Millisecond
      /\ Type_ goSyntax b evt (PAttachments attachments)
         = [ SendTypingMessage (Channel evt);
             Sleep (2000 * Duration.Millisecond) ]).
Proof.
  split; [ reflexivity | split; [ reflexivity | ] ].
  intros Hlen. rewrite Type_sleeps. cbn [msgLen]. rewrite Hlen.
  split; reflexivity.
Qed.

End TypingProperties.

Lemma msgLen_unsupported_is_zero_witness :
  msgLen textSyntax (PBytes ["h"; "e"; "l"; "l"; "o"]%char) = 0
  /\ sleepDuration (msgLen textSyntax (PBytes ["h"; "e"; "l"; "l"; "o"]%char)) = 0
  /\ Type_ textSyntax sampleBot sampleMessage
       (PBytes ["h"; "e"; "l"; "l"; "o"]%char)
     = [ SendTypingMessage "C1"; Sleep 0 ].
Proof.
  apply (msgLen_unsupported_is_zero textSyntax sampleBot sampleMessage
           (PBytes ["h"; "e"; "l"; "l"; "o"]%char)).
  - intros m H. discriminate H.
  - intros m H. discriminate H.
Defined.

(** C4 as stated fails: for attachments whose serialization has length
    9000, the sleep of [ReplyWithAttachments] is not the one computed from
    that serialization (200 ms against 2000 ms). *)
Lemma ReplyWithAttachments_sleep_not_from_attachments :
  Z.of_nat (String.length (textSyntax longAttachments)) = 9000
  /\ sleeps (ReplyWithAttachments textSyntax sampleBot sampleMessage
               longAttachments WithTyping)
     = [ 200 * Duration.Millisecond ]
  /\ sleepDuration (msgLen textSyntax (PAttachments longAttachments))
     = 2000 * Duration.Millisecond
  /\ sleeps (ReplyWithAttachments textSyntax sampleBot sampleMessage
               longAttachments WithTyping)
     <> [ sleepDuration (msgLen textSyntax (PAttachments longAttachments)) ].
Proof.
  assert (Hlen : Z.of_nat (String.length (textSyntax longAttachments)) = 9000)
    by (vm_compute; reflexivity).
  split; [ exact Hlen | ].
  split; [ reflexivity | ].
  cbn [msgLen]. rewrite Hlen.
  split; [ reflexivity | ].
  intros H. vm_compute in H. discriminate H.
Qed.

Lemma ReplyWithAttachments_sleeps_for_token_witness :
  ReplyWithAttachments textSyntax sampleBot sampleMessage longAttachments
    WithTyping
  = [ SendTypingMessage "C1";
      Sleep (200 * Duration.Millisecond);
      PostMessage "C1" (MsgOptionAttachments longAttachments)
        {| AsUser := true; PostUsername := "U123"; LinkNames := 1;
           UnfurlLinks := false; UnfurlMedia := false |} ]
  /\ sleepDuration (Z.of_nat (String.length "attachment"))
     = 200 * Duration.Millisecond
  /\ Duration.div (Duration.mul Duration.Minute
                     (msgLen textSyntax (PAttachments longAttachments))) 3000
     = 180000 * Duration.Millisecond
  /\ Type_ textSyntax sampleBot sampleMessage (PAttachments longAttachments)
     = [ SendTypingMessage "C1"; Sleep (2000 * Duration.Millisecond) ].
Proof.
  destruct (ReplyWithAttachments_sleeps_for_token textSyntax sampleBot
              sampleMessage longAttachments) as [Hreply [Htoken Hlist]].
  split; [ exact Hreply | ]. split; [ exact Htoken | ].
  apply Hlist. vm_compute. reflexivity.
Defined.

(** ** The receive loop *)

Section LoopProperties.

Context {Attachment : Type}.

Implicit Types (b : Bot Attachment) (msg : EventData)
         (pre post rest : list EventData).

Lemma Run_step b msg rest :
  Run b (msg :: rest)
  = match handleEvent b msg with
    | (b', out, BreakLoop) =>
        {| finalBot := b'; trace := out; exited := true; unread := rest |}
    | (b', out, ContinueLoop) =>
        {| finalBot := finalBot (Run b' rest);
           trace := out ++ trace (Run b' rest);
           exited := exited (Run b' rest);
           unread := unread (Run b' rest) |}
    end.
Proof. reflexivity. Qed.

(** Only the invalid-authentication case leaves the loop. *)
Lemma handleEvent_flow b msg :
  snd (handleEvent b msg)
  = if isInvalidAuth msg then BreakLoop else ContinueLoop.
Proof.
  destruct msg as [ev | ev | | tn m | tn]; try reflexivity.
  unfold handleEvent. destruct (fromBot b ev); [ reflexivity | ].
  destruct (Match _ _) as [[m | ] ctx']; reflexivity.
Qed.

(** Only the connected case writes to the bot. *)
Lemma handleEvent_bot b msg :
  isConnected msg = false -> fst (fst (handleEvent b msg)) = b.
Proof.
  destruct msg as [ev | ev | | tn m | tn]; try reflexivity; [ discriminate | ].
  intros _. unfold handleEvent. destruct (fromBot b ev); [ reflexivity | ].
  destruct (Match _ _) as [[m | ] ctx']; reflexivity.
Qed.

(** A stream cut in two: while the loop has not been left after the
    first part, the second part is run from where the first part ends. *)
Lemma Run_app b pre post :
  exited (Run b pre) = false ->
  Run b (pre ++ post)
  = {| finalBot := finalBot (Run (finalBot (Run b pre)) post);
       trace := trace (Run b pre) ++ trace (Run (finalBot (Run b pre)) post);
       exited := exited (Run (finalBot (Run b pre)) post);
       unread := unread (Run (finalBot (Run b pre)) post) |}.
Proof.
  revert b. induction pre as [ | msg pre IH]; intros b Hrun.
  - cbn. destruct (Run b post); reflexivity.
  - rewrite <- app_comm_cons, !Run_step. rewrite Run_step in Hrun.
    destruct (handleEvent b msg) as [[b' out] [ | ]]; cbn in Hrun |- *.
    + rewrite (IH b' Hrun). cbn. rewrite app_assoc. reflexivity.
    + discriminate Hrun.
Qed.

Lemma Run_not_exited b pre :
  forallb (fun msg => negb (isInvalidAuth msg)) pre = true ->
  exited (Run b pre) = false.
Proof.
  revert b. induction pre as [ | msg pre IH]; intros b Hpre; [ reflexivity | ].
  cbn [forallb] in Hpre. apply andb_prop in Hpre. destruct Hpre as [Hmsg Hpre].
  rewrite Run_step. pose proof (handleEvent_flow b msg) as Hflow.
  destruct (handleEvent b msg) as [[b' out] flow]. cbn in Hflow. subst flow.
  destruct (isInvalidAuth msg); [ discriminate Hmsg | ].
  cbn. apply IH. exact Hpre.
Qed.

Lemma Run_finalBot_unchanged b post :
  forallb (fun msg => negb (isConnected msg)) post = true ->
  finalBot (Run b post) = b.
Proof.
  revert b. induction post as [ | msg post IH]; intros b Hpost; [ reflexivity | ].
  cbn [forallb] in Hpost. apply andb_prop in Hpost. destruct Hpost as [Hmsg Hpost].
  apply negb_true_iff in Hmsg.
  rewrite Run_step. pose proof (handleEvent_bot b msg Hmsg) as Hbot.
  destruct (handleEvent b msg) as [[b' out] [ | ]]; cbn in Hbot |- *; subst b'.
  - apply IH. exact Hpost.
  - reflexivity.
Qed.

Lemma fromBot_true_iff b (ev : MessageEvent) :
  fromBot b ev = true
  <-> (botUserID b = User ev \/ botUserName b = User ev).
Proof.
  unfold fromBot. rewrite orb_true_iff, !String.eqb_eq. reflexivity.
Qed.

Lemma MessageFromContext_AddMessageToContext (ctx : Context)
      (ev : MessageEvent) :
  MessageFromContext (AddMessageToContext ctx ev) = Some ev.
Proof. reflexivity. Qed.

(** The scan stops at the first route that accepts the event. *)
Lemma matchRoutes_first (pre post : list (Route Attachment))
      (A : Route Attachment) (ev : MessageEvent) :
  existsb (fun r => routeMatches r ev) pre = false ->
  routeMatches A ev = true ->
  matchRoutes (pre ++ A :: post) ev
  = Some {| MatchedRoute := A; MatchedHandler := handler A |}.
Proof.
  intros Hpre HA. induction pre as [ | r pre IH]; cbn.
  - rewrite HA. reflexivity.
  - cbn in Hpre. apply orb_false_iff in Hpre. destruct Hpre as [Hr Hpre].
    rewrite Hr. apply IH. exact Hpre.
Qed.

(** Routes registered after one that accepts the event are not
    consulted. *)
Lemma matchRoutes_ignores_later (pre post : list (Route Attachment))
      (A : Route Attachment) (ev : MessageEvent) :
  routeMatches A ev = true ->
  matchRoutes (pre ++ A :: post) ev = matchRoutes (pre ++ [A]) ev.
Proof.
  intros HA. induction pre as [ | r pre IH]; cbn.
  - rewrite HA. reflexivity.
  - destruct (routeMatches r ev); [ reflexivity | exact IH ].
Qed.

(** C1: a message whose sender equals the stored [botUserID] or the
    stored [botUserName] when it is received is dropped before routing:
    the pass through the loop body calls neither [Match] nor a handler
    and changes nothing, so the run is the one of the stream without
    that message. *)
Theorem self_message_skips_routing b pre (ev : MessageEvent) post :
  exited (Run b pre) = false ->
  (botUserID (finalBot (Run b pre)) = User ev
   \/ botUserName (finalBot (Run b pre)) = User ev) ->
  handleEvent (finalBot (Run b pre)) (MessageData ev)
  = (finalBot (Run b pre), [], ContinueLoop)
  /\ routingCalls
       (snd (fst (handleEvent (finalBot (Run b pre)) (MessageData ev)))) = 0%nat
  /\ Run b (pre ++ MessageData ev :: post) = Run b (pre ++ post).
Proof.
  intros Hpre Hself. apply fromBot_true_iff in Hself.
  assert (Hstep : handleEvent (finalBot (Run b pre)) (MessageData ev)
                  = (finalBot (Run b pre), [], ContinueLoop)).
  { unfold handleEvent. rewrite Hself. reflexivity. }
  split; [ exact Hstep | ]. split; [ rewrite Hstep; reflexivity | ].
  rewrite !Run_app by exact Hpre. rewrite Run_step, Hstep. reflexivity.
Qed.

(** C2: [Match] selects the first route, in registration order, whose
    kind and pattern accept the event, and [Run] calls that route's
    handler: with the routes [pre ++ A :: post], no route of [pre]
    accepting the event and [A] accepting it, [A] is selected whatever
    [post] holds; routes registered after an accepting route are never
    consulted. *)
Theorem Match_selects_first_route b (ev : MessageEvent)
        (pre post : list (Route Attachment)) (A : Route Attachment) :
  registered (router b) = pre ++ A :: post ->
  existsb (fun r => routeMatches r ev) pre = false ->
  routeMatches A ev = true ->
  fromBot b ev = false ->
  let ctx := AddMessageToContext (AddBotToContext Background b) ev in
  Match (router b) ctx
  = (Some {| MatchedRoute := A; MatchedHandler := handler A |}, ctx)
  /\ handleEvent b (MessageData ev)
     = (b,
        CallMatch ctx :: CallHandler (handler A) ctx
          :: map Did (handler A ctx),
        ContinueLoop)
  /\ (forall earlier later : list (Route Attachment),
         Match {| registered := earlier ++ A :: later |} ctx
         = Match {| registered := earlier ++ [A] |} ctx).
Proof.
  intros Hroutes Hpre HA Hother ctx.
  assert (HM : Match (router b) ctx
               = (Some {| MatchedRoute := A; MatchedHandler := handler A |},
                  ctx)).
  { unfold Match, ctx. rewrite MessageFromContext_AddMessageToContext.
    rewrite Hroutes, (matchRoutes_first pre post A ev Hpre HA). reflexivity. }
  split; [ exact HM | ]. split.
  - unfold handleEvent. rewrite Hother. fold ctx. rewrite HM. reflexivity.
  - intros earlier later. unfold Match, ctx.
    rewrite MessageFromContext_AddMessageToContext. cbn [registered].
    rewrite (matchRoutes_ignores_later earlier later A ev HA). reflexivity.
Qed.

(** C5: an invalid-authentication event ends the loop: the run stops
    with that event, and the events behind it in the stream stay
    unread, whatever they are. *)
Theorem InvalidAuth_terminates_loop b pre post :
  forallb (fun msg => negb (isInvalidAuth msg)) pre = true ->
  handleEvent (finalBot (Run b pre)) InvalidAuthData
  = (finalBot (Run b pre), [ Printf LogInvalidCredentials ], BreakLoop)
  /\ Run b (pre ++ InvalidAuthData :: post)
     = {| finalBot := finalBot (Run b pre);
          trace := trace (Run b pre) ++ [ Printf LogInvalidCredentials ];
          exited := true;
          unread := post |}.
Proof.
  intros Hpre. split; [ reflexivity | ].
  rewrite Run_app by (apply Run_not_exited; exact Hpre).
  reflexivity.
Qed.

(** C8: a transport error is printed and the loop goes on with the next
    event; the bot is unchanged and the loop is not left. *)
Theorem TransportError_logged_and_loop_continues b
        (typeName message : string) rest :
  handleEvent b (ErrorData typeName message)
  = (b, [ Printf (LogError typeName message) ], ContinueLoop)
  /\ Run b (ErrorData typeName message :: rest)
     = {| finalBot := finalBot (Run b rest);
          trace := Printf (LogError typeName message) :: trace (Run b rest);
          exited := exited (Run b rest);
          unread := unread (Run b rest) |}.
Proof. split; reflexivity. Qed.

(** C9: a connected event stores its user ID and user name in
    [botUserID] and [botUserName], over whatever earlier connected
    events stored, and [BotUserID] and [BotUserName] return them from
    then on, until another connected event arrives. *)
Theorem Connected_stores_identity b pre (ev : ConnectedEvent) post :
  exited (Run b pre) = false ->
  forallb (fun msg => negb (isConnected msg)) post = true ->
  handleEvent (finalBot (Run b pre)) (ConnectedData ev)
  = (setBotName (setBotID (finalBot (Run b pre)) (ID (InfoUser ev)))
       (Name (InfoUser ev)),
     [ Printf (LogConnected (InfoUser ev) (ConnectionCount ev)) ],
     ContinueLoop)
  /\ BotUserID (finalBot (Run b (pre ++ ConnectedData ev :: post)))
     = ID (InfoUser ev)
  /\ BotUserName (finalBot (Run b (pre ++ ConnectedData ev :: post)))
     = Name (InfoUser ev).
Proof.
  intros Hpre Hpost. split; [ reflexivity | ].
  rewrite Run_app by exact Hpre. rewrite Run_step. cbn.
  rewrite (Run_finalBot_unchanged _ post Hpost). split; reflexivity.
Qed.

(** C10: the sender test compares [botUserID] and [botUserName] with one
    field of the message, the sender's user ID [User]: the message is
    dropped before routing exactly when [User] equals one of the two,
    [Match] is called exactly when it equals neither, and the display
    name [Username] (like the channel and the text) has no part in
    it. *)
Theorem suppression_compares_sender_ID b (ev : MessageEvent) :
  (handleEvent b (MessageData ev) = (b, [], ContinueLoop)
   <-> (botUserID b = User ev \/ botUserName b = User ev))
  /\ ((exists ctx, In (CallMatch ctx) (snd (fst (handleEvent b (MessageData ev)))))
      <-> ~ (botUserID b = User ev \/ botUserName b = User ev))
  /\ (forall channel name text : string,
         fromBot b {| Channel := channel; User := User ev;
                      Username := name; Text := text |}
         = fromBot b ev).
Proof.
  assert (Hfields : forall channel name text : string,
             fromBot b {| Channel := channel; User := User ev;
                          Username := name; Text := text |}
             = fromBot b ev) by reflexivity.
  rewrite <- fromBot_true_iff. unfold handleEvent.
  destruct (fromBot b ev) eqn:Hfrom.
  - split; [ | split; [ | exact Hfields ] ].
    + split; reflexivity.
    + split.
      * intros [ctx []].
      * intros H. exfalso. apply H. reflexivity.
  - split; [ | split; [ | exact Hfields ] ].
    + split; [ | discriminate ].
      destruct (Match _ _) as [[m | ] ctx']; discriminate.
    + split; [ discriminate | ]. intros _.
      destruct (Match _ _) as [[m | ] ctx']; eexists; left; reflexivity.
Qed.

End LoopProperties.

Lemma self_message_skips_routing_witness :
  handleEvent (finalBot (Run freshBot [ ConnectedData sampleConnected ]))
    (MessageData selfMessage)
  = (finalBot (Run freshBot [ ConnectedData sampleConnected ]), [],
     ContinueLoop)
  /\ routingCalls
       (snd (fst (handleEvent
                    (finalBot (Run freshBot [ ConnectedData sampleConnected ]))
                    (MessageData selfMessage)))) = 0%nat
  /\ Run freshBot ([ ConnectedData sampleConnected ]
                     ++ MessageData selfMessage :: [ MessageData sampleMessage ])
     = Run freshBot ([ ConnectedData sampleConnected ]
                       ++ [ MessageData sampleMessage ]).
Proof.
  apply (self_message_skips_routing freshBot [ ConnectedData sampleConnected ]
           selfMessage [ MessageData sampleMessage ]).
  - reflexivity.
  - left. reflexivity.
Defined.

Lemma Match_selects_first_route_witness :
  routeMatches hiThereRoute sampleMessage = true
  /\ Match (router sampleBot)
       (AddMessageToContext (AddBotToContext Background sampleBot) sampleMessage)
     = (Some {| MatchedRoute := hiRoute; MatchedHandler := handler hiRoute |},
        AddMessageToContext (AddBotToContext Background sampleBot) sampleMessage)
  /\ snd (fst (handleEvent sampleBot (MessageData sampleMessage)))
     = [ CallMatch
           (AddMessageToContext (AddBotToContext Background sampleBot)
              sampleMessage);
         CallHandler (say "first")
           (AddMessageToContext (AddBotToContext Background sampleBot)
              sampleMessage);
         Did (SendOutgoingMessage "first" "C1") ].
Proof.
  destruct (Match_selects_first_route sampleBot sampleMessage [] [ hiThereRoute ]
              hiRoute) as [HM [Hrun _]].
  - reflexivity.
  - reflexivity.
  - reflexivity.
  - reflexivity.
  - split; [ reflexivity | ]. split; [ exact HM | ].
    rewrite Hrun. reflexivity.
Defined.

Lemma InvalidAuth_terminates_loop_witness :
  handleEvent (finalBot (Run freshBot [ ConnectedData sampleConnected ]))
    InvalidAuthData
  = (finalBot (Run freshBot [ ConnectedData sampleConnected ]),
     [ Printf LogInvalidCredentials ], BreakLoop)
  /\ Run freshBot ([ ConnectedData sampleConnected ]
                     ++ InvalidAuthData :: [ MessageData sampleMessage ])
     = {| finalBot := finalBot (Run freshBot [ ConnectedData sampleConnected ]);
          trace := trace (Run freshBot [ ConnectedData sampleConnected ])
                     ++ [ Printf LogInvalidCredentials ];
          exited := true;
          unread := [ MessageData sampleMessage ] |}.
Proof.
  apply (InvalidAuth_terminates_loop freshBot [ ConnectedData sampleConnected ]
           [ MessageData sampleMessage ]).
  reflexivity.
Defined.

Lemma Connected_stores_identity_witness :
  handleEvent (finalBot (Run freshBot [ ConnectedData sampleConnected ]))
    (ConnectedData reconnected)
  = (setBotName
       (setBotID (finalBot (Run freshBot [ ConnectedData sampleConnected ]))
          (ID (InfoUser reconnected)))
       (Name (InfoUser reconnected)),
     [ Printf (LogConnected (InfoUser reconnected)
                 (ConnectionCount reconnected)) ],
     ContinueLoop)
  /\ BotUserID
       (finalBot (Run freshBot ([ ConnectedData sampleConnected ]
                                  ++ ConnectedData reconnected
                                  :: [ MessageData sampleMessage ])))
     = "U456"
  /\ BotUserName
       (finalBot (Run freshBot ([ ConnectedData sampleConnected ]
                                  ++ ConnectedData reconnected
                                  :: [ MessageData sampleMessage ])))
     = "bot2".
Proof.
  apply (Connected_stores_identity freshBot [ ConnectedData sampleConnected ]
           reconnected [ MessageData sampleMessage ]).
  - reflexivity.
  - reflexivity.
Defined.

(** The scenarios of the specification, run. *)

Example connected_then_own_message_routes_nothing :
  trace (Run freshBot [ ConnectedData sampleConnected; MessageData selfMessage ])
  = [ Printf (LogConnected {| ID := "U123"; Name := "bot1" |} 1) ].
Proof. reflexivity. Qed.

Example namesake_message_is_routed :
  fromBot sampleBot namesakeMessage = false
  /\ trace (Run sampleBot [ MessageData namesakeMessage ])
     = [ CallMatch
           (AddMessageToContext (AddBotToContext Background sampleBot)
              namesakeMessage);
         CallHandler (say "first")
           (AddMessageToContext (AddBotToContext Background sampleBot)
              namesakeMessage);
         Did (SendOutgoingMessage "first" "C1") ].
Proof. split; reflexivity. Qed.

Example message_before_connected_with_empty_sender_is_dropped :
  trace (Run (New TextAttachment "xoxb-token")
           [ MessageData {| Channel := "C1"; User := ""; Username := "";
                            Text := "hi" |} ])
  = [].
Proof. reflexivity. Qed.

Example reply_with_typing :
  Reply textSyntax sampleBot sampleMessage "A bit tired." WithTyping
  = [ SendTypingMessage "C1";
      Sleep (240 * Duration.Millisecond);
      SendOutgoingMessage "A bit tired." "C1" ].
Proof. reflexivity. Qed.

(** * Further properties of [bot.go] *)

Section MoreLoopProperties.

Context {Attachment : Type}.

Implicit Types (b : Bot Attachment) (msg : EventData)
         (pre post rest evs : list EventData).

(** Once the loop has been left, what follows in the stream is only
    added to what stays unread. *)
Lemma Run_app_exited b pre post :
  exited (Run b pre) = true ->
  Run b (pre ++ post)
  = {| finalBot := finalBot (Run b pre);
       trace := trace (Run b pre);
       exited := true;
       unread := unread (Run b pre) ++ post |}.
Proof.
  revert b. induction pre as [ | msg pre IH]; intros b Hrun.
  - discriminate Hrun.
  - rewrite <- app_comm_cons, !Run_step. rewrite Run_step in Hrun.
    destruct (handleEvent b msg) as [[b' out] [ | ]]; cbn in Hrun |- *.
    + rewrite (IH b' Hrun). reflexivity.
    + reflexivity.
Qed.

Lemma handleEvent_routes b msg :
  router (fst (fst (handleEvent b msg))) = router b
  /\ routes (fst (fst (handleEvent b msg))) = routes b.
Proof.
  destruct msg as [ev | ev | | tn m | tn]; try (split; reflexivity).
  unfold handleEvent. destruct (fromBot b ev); [ split; reflexivity | ].
  destruct (Match _ _) as [[m | ] ctx']; split; reflexivity.
Qed.

Lemma handleEvent_skip_iff b (ev : MessageEvent) :
  handleEvent b (MessageData ev) = (b, [], ContinueLoop)
  <-> fromBot b ev = true.
Proof.
  unfold handleEvent. destruct (fromBot b ev).
  - split; reflexivity.
  - split; [ | discriminate ].
    destruct (Match _ _) as [[m | ] ctx']; discriminate.
Qed.

Lemma filter_isCallMatch_Did (acts : list (Action Attachment)) :
  filter isCallMatch (map Did acts) = [].
Proof. induction acts as [ | a acts IH]; [ reflexivity | exact IH ]. Qed.

Lemma filter_isCallHandler_Did (acts : list (Action Attachment)) :
  filter isCallHandler (map Did acts) = [].
Proof. induction acts as [ | a acts IH]; [ reflexivity | exact IH ]. Qed.

(** One pass calls a handler at most as often as [Match], and [Match] at
    most once, and only for a message event. *)
Lemma handleEvent_calls b msg :
  (handlerCalls (snd (fst (handleEvent b msg)))
   <= matchCalls (snd (fst (handleEvent b msg))))%nat
  /\ (matchCalls (snd (fst (handleEvent b msg)))
      <= if isMessage msg then 1 else 0)%nat.
Proof.
  destruct msg as [ev | ev | | tn m | tn]; try (split; cbn; lia).
  unfold handleEvent. destruct (fromBot b ev); [ split; cbn; lia | ].
  destruct (Match _ _) as [[m | ] ctx']; unfold handlerCalls, matchCalls; cbn.
  - rewrite filter_isCallMatch_Did, filter_isCallHandler_Did. cbn. lia.
  - lia.
Qed.

(** X1: an event of a kind the switch does not list is dropped without
    a trace: the run is the one of the stream without it. *)
Theorem other_events_are_ignored b pre (typeName : string) post :
  exited (Run b pre) = false ->
  Run b (pre ++ OtherData typeName :: post) = Run b (pre ++ post).
Proof.
  intros Hpre. rewrite !Run_app by exact Hpre. rewrite Run_step. reflexivity.
Qed.

(** X2: the loop is left exactly when the stream holds an
    invalid-authentication event; otherwise every event is received. *)
Theorem loop_exits_only_on_InvalidAuth b evs :
  exited (Run b evs) = existsb isInvalidAuth evs
  /\ (existsb isInvalidAuth evs = false -> unread (Run b evs) = []).
Proof.
  revert b. induction evs as [ | msg evs IH]; intros b.
  - split; reflexivity.
  - rewrite Run_step. pose proof (handleEvent_flow b msg) as Hflow.
    destruct (handleEvent b msg) as [[b' out] flow]. cbn in Hflow. subst flow.
    cbn [existsb]. destruct (isInvalidAuth msg); cbn.
    + split; [ reflexivity | discriminate ].
    + exact (IH b').
Qed.

(** X3: the loop never touches the registered routes: after any stream
    the bot has the router and the routes it started with. *)
Theorem Run_keeps_routes b evs :
  router (finalBot (Run b evs)) = router b
  /\ routes (finalBot (Run b evs)) = routes b.
Proof.
  revert b. induction evs as [ | msg evs IH]; intros b.
  - split; reflexivity.
  - rewrite Run_step. pose proof (handleEvent_routes b msg) as [Hr Hrs].
    destruct (handleEvent b msg) as [[b' out] [ | ]]; cbn in Hr, Hrs |- *.
    + destruct (IH b') as [IHr IHrs]. rewrite IHr, IHrs. split; assumption.
    + split; assumption.
Qed.

(** X4: events are handled in arrival order: what the loop has done for
    the first events of a stream is a prefix of what it does for the
    whole stream, and nothing is added once the loop has been left. *)
Theorem trace_of_prefix_is_prefix b pre post :
  exists t,
    trace (Run b (pre ++ post)) = trace (Run b pre) ++ t
    /\ (exited (Run b pre) = true -> t = []).
Proof.
  destruct (exited (Run b pre)) eqn:Hpre.
  - exists []. rewrite (Run_app_exited b pre post Hpre). cbn.
    rewrite app_nil_r. split; reflexivity.
  - exists (trace (Run (finalBot (Run b pre)) post)).
    rewrite (Run_app b pre post Hpre). cbn. split; [ reflexivity | discriminate ].
Qed.

(** X5: the unread events are a suffix of the stream, and the events in
    front of them account for the whole run: on them alone the loop ends
    with the same bot and the same trace. *)
Theorem unread_is_suffix b evs :
  exists processed,
    evs = processed ++ unread (Run b evs)
    /\ finalBot (Run b processed) = finalBot (Run b evs)
    /\ trace (Run b processed) = trace (Run b evs).
Proof.
  revert b. induction evs as [ | msg evs IH]; intros b.
  - exists []. repeat split.
  - destruct (handleEvent b msg) as [[b' out] flow] eqn:Hstep.
    destruct flow.
    + destruct (IH b') as [processed [Hevs [Hbot Htrace]]].
      exists (msg :: processed). rewrite !Run_step, Hstep. cbn.
      rewrite Hbot, Htrace. repeat split. f_equal. exact Hevs.
    + exists [msg]. rewrite !Run_step, Hstep. cbn. repeat split.
Qed.

(** X6: the sender test follows the latest connected event: after it,
    and until another one arrives, a message is dropped before routing
    exactly when its [User] is that event's user ID or user name. *)
Theorem suppression_follows_last_Connected b pre (ev : ConnectedEvent) post
        (m : MessageEvent) :
  exited (Run b pre) = false ->
  forallb (fun msg => negb (isConnected msg)) post = true ->
  handleEvent (finalBot (Run b (pre ++ ConnectedData ev :: post)))
    (MessageData m)
  = (finalBot (Run b (pre ++ ConnectedData ev :: post)), [], ContinueLoop)
  <-> (ID (InfoUser ev) = User m \/ Name (InfoUser ev) = User m).
Proof.
  intros Hpre Hpost. rewrite handleEvent_skip_iff, fromBot_true_iff.
  rewrite Run_app by exact Hpre. rewrite Run_step. cbn.
  rewrite (Run_finalBot_unchanged _ post Hpost). reflexivity.
Qed.

(** X7: a bot made by [New] has empty identity fields, so before the
    first connected event it drops exactly the messages whose [User] is
    empty. *)
Theorem fresh_bot_drops_only_empty_sender (slackToken : string)
        (m : MessageEvent) :
  handleEvent (New Attachment slackToken) (MessageData m)
  = (New Attachment slackToken, [], ContinueLoop)
  <-> User m = "".
Proof.
  rewrite handleEvent_skip_iff, fromBot_true_iff. cbn.
  split; [ intros [H | H]; symmetry; exact H | intros H; left; symmetry; exact H ].
Qed.

(** X8: over any stream the loop calls a handler at most as often as it
    calls [Match], and [Match] at most once for each message event of
    the stream. *)
Theorem routing_call_counts b evs :
  (handlerCalls (trace (Run b evs)) <= matchCalls (trace (Run b evs)))%nat
  /\ (matchCalls (trace (Run b evs)) <= List.length (filter isMessage evs))%nat.
Proof.
  revert b. induction evs as [ | msg evs IH]; intros b.
  - split; cbn; lia.
  - rewrite Run_step. pose proof (handleEvent_calls b msg) as [Hh Hm].
    destruct (handleEvent b msg) as [[b' out] [ | ]]; cbn in Hh, Hm |- *.
    + destruct (IH b') as [IHh IHm].
      unfold handlerCalls, matchCalls in *.
      rewrite !filter_app, !length_app.
      destruct (isMessage msg); cbn [List.length]; lia.
    + destruct (isMessage msg); cbn [List.length]; lia.
Qed.

(** X9: the identity fields change on connected events only: over a
    stream without one, whatever the messages and their handlers, the
    accessors return what they returned before. *)
Theorem identity_changes_only_on_Connected b evs :
  forallb (fun msg => negb (isConnected msg)) evs = true ->
  BotUserID (finalBot (Run b evs)) = BotUserID b
  /\ BotUserName (finalBot (Run b evs)) = BotUserName b.
Proof.
  intros Hevs. rewrite (Run_finalBot_unchanged b evs Hevs). split; reflexivity.
Qed.

End MoreLoopProperties.

Section MoreTypingProperties.

Context {Attachment : Type} (goSyntax : list Attachment -> string).

Lemma msgLen_nonneg (msg : Payload Attachment) : 0 <= msgLen goSyntax msg.
Proof. destruct msg; cbn; lia. Qed.

(** X10: for a payload whose measured length is at most 153722867,
    [Type] sends one typing message and sleeps 20 ms for each byte, with
    2000 ms as the most; the sleep is not negative there. *)
Theorem Type_sleeps_20ms_per_byte_up_to_cap (b : Bot Attachment)
        (evt : MessageEvent) (msg : Payload Attachment) :
  msgLen goSyntax msg <= maxExactLen ->
  Type_ goSyntax b evt msg
  = [ SendTypingMessage (Channel evt);
      Sleep (Z.min (20 * Duration.Millisecond * msgLen goSyntax msg)
               maxTypingSleepMs) ]
  /\ 0 <= Z.min (20 * Duration.Millisecond * msgLen goSyntax msg)
            maxTypingSleepMs.
Proof.
  intros Hlen. pose proof (msgLen_nonneg msg) as H0.
  rewrite Type_sleeps, sleepDuration_exact by lia. split; [ reflexivity | ].
  unfold maxTypingSleepMs, Duration.Millisecond, Duration.Microsecond,
    Duration.Nanosecond. lia.
Qed.

(** X11: each reply primitive sleeps at most once, and never longer
    than 2000 ms, whatever the message and the attachments. *)
Theorem replies_sleep_once_at_most_2000ms (b : Bot Attachment)
        (evt : MessageEvent) (msg : string) (attachments : list Attachment)
        (typing : bool) :
  (Forall (fun d => d <= maxTypingSleepMs)
     (sleeps (Reply goSyntax b evt msg typing))
   /\ (List.length (sleeps (Reply goSyntax b evt msg typing)) <= 1)%nat)
  /\ (Forall (fun d => d <= maxTypingSleepMs)
        (sleeps (ReplyPost goSyntax b evt msg typing))
      /\ (List.length (sleeps (ReplyPost goSyntax b evt msg typing)) <= 1)%nat)
  /\ (Forall (fun d => d <= maxTypingSleepMs)
        (sleeps (ReplyWithAttachments goSyntax b evt attachments typing))
      /\ (List.length
            (sleeps (ReplyWithAttachments goSyntax b evt attachments typing))
          <= 1)%nat).
Proof.
  unfold Reply, ReplyPost, ReplyWithAttachments.
  destruct typing; rewrite ?Type_sleeps; cbn [app sleeps List.length];
    repeat split;
    repeat constructor; apply sleepDuration_le_max.
Qed.

(** X12: below the overflow the cap is reached from 100 bytes on: a
    payload sleeps the full 2000 ms exactly when its length is at least
    100. *)
Theorem cap_is_reached_at_100_bytes (n : Z) :
  0 <= n -> n <= maxExactLen ->
  (sleepDuration n = maxTypingSleepMs <-> 100 <= n).
Proof.
  intros H0 Hn. rewrite sleepDuration_exact by lia.
  unfold maxTypingSleepMs, Duration.Millisecond, Duration.Microsecond,
    Duration.Nanosecond. lia.
Qed.

(** X13: whatever a reply primitive sends goes to the channel of the
    event it replies to. *)
Theorem replies_address_event_channel (b : Bot Attachment)
        (evt : MessageEvent) (msg : string) (attachments : list Attachment)
        (typing : bool) :
  Forall (fun a => actionChannel a = None
                   \/ actionChannel a = Some (Channel evt))
    (Reply goSyntax b evt msg typing
       ++ ReplyPost goSyntax b evt msg typing
       ++ ReplyWithAttachments goSyntax b evt attachments typing).
Proof.
  unfold Reply, ReplyPost, ReplyWithAttachments.
  destruct typing; rewrite ?Type_sleeps; cbn [app];
    repeat (constructor; [ cbn; auto | ]); constructor.
Qed.

(** X14: the replies sent through the post API are attributed to the
    user ID, not the user name, of the latest connected event: both
    [ReplyPost] and [ReplyWithAttachments] set the post's username to
    it. *)
Theorem posts_carry_connected_user_ID (b : Bot Attachment)
        (pre : list EventData) (ev : ConnectedEvent) (post : list EventData)
        (evt : MessageEvent) (msg : string) (attachments : list Attachment)
        (typing : bool) :
  exited (Run b pre) = false ->
  forallb (fun e => negb (isConnected e)) post = true ->
  last (ReplyPost goSyntax
          (finalBot (Run b (pre ++ ConnectedData ev :: post))) evt msg typing)
       (Sleep 0)
  = PostMessage (Channel evt) (MsgOptionText msg false)
      {| AsUser := true; PostUsername := ID (InfoUser ev); LinkNames := 1;
         UnfurlLinks := true; UnfurlMedia := true |}
  /\ last (ReplyWithAttachments goSyntax
             (finalBot (Run b (pre ++ ConnectedData ev :: post)))
             evt attachments typing)
          (Sleep 0)
     = PostMessage (Channel evt) (MsgOptionAttachments attachments)
         {| AsUser := true; PostUsername := ID (InfoUser ev); LinkNames := 1;
            UnfurlLinks := false; UnfurlMedia := false |}.
Proof.
  intros Hpre Hpost.
  assert (Hid : botUserID (finalBot (Run b (pre ++ ConnectedData ev :: post)))
                = ID (InfoUser ev)).
  { rewrite Run_app by exact Hpre. rewrite Run_step. cbn.
    rewrite (Run_finalBot_unchanged _ post Hpost). reflexivity. }
  unfold ReplyPost, ReplyWithAttachments, BotUserID. rewrite Hid.
  destruct typing; rewrite ?Type_sleeps; split; reflexivity.
Qed.

(** X15: below the overflow a longer payload never sleeps less: for
    two payloads with measured lengths in order, the longer at most
    153722867, the sleep of [Type] for the first is at most the sleep for
    the second. *)
Theorem Type_delay_monotone_below_overflow (b : Bot Attachment)
        (evt : MessageEvent) (shorter longer : Payload Attachment) :
  msgLen goSyntax shorter <= msgLen goSyntax longer ->
  msgLen goSyntax longer <= maxExactLen ->
  exists d1 d2,
    sleeps (Type_ goSyntax b evt shorter) = [ d1 ]
    /\ sleeps (Type_ goSyntax b evt longer) = [ d2 ]
    /\ 0 <= d1 <= d2.
Proof.
  intros Hle Hmax. pose proof (msgLen_nonneg shorter) as H0.
  exists (sleepDuration (msgLen goSyntax shorter)),
    (sleepDuration (msgLen goSyntax longer)).
  rewrite !Type_sleeps. split; [ reflexivity | split; [ reflexivity | ] ].
  rewrite !sleepDuration_exact by lia.
  unfold maxTypingSleepMs, Duration.Millisecond, Duration.Microsecond,
    Duration.Nanosecond. lia.
Qed.

End MoreTypingProperties.

Lemma other_events_are_ignored_witness :
  Run freshBot ([ ConnectedData sampleConnected ]
                  ++ OtherData "*slack.HelloEvent"
                  :: [ MessageData sampleMessage ])
  = Run freshBot ([ ConnectedData sampleConnected ]
                    ++ [ MessageData sampleMessage ]).
Proof.
  apply (other_events_are_ignored freshBot [ ConnectedData sampleConnected ]
           "*slack.HelloEvent" [ MessageData sampleMessage ]).
  reflexivity.
Defined.

Lemma suppression_follows_last_Connected_witness :
  handleEvent
    (finalBot (Run freshBot ([ ConnectedData sampleConnected ]
                               ++ ConnectedData reconnected
                               :: [ MessageData sampleMessage ])))
    (MessageData selfMessage)
  = (finalBot (Run freshBot ([ ConnectedData sampleConnected ]
                               ++ ConnectedData reconnected
                               :: [ MessageData sampleMessage ])),
     [], ContinueLoop)
  <-> (ID (InfoUser reconnected) = User selfMessage
       \/ Name (InfoUser reconnected) = User selfMessage).
Proof.
  apply (suppression_follows_last_Connected freshBot
           [ ConnectedData sampleConnected ] reconnected
           [ MessageData sampleMessage ] selfMessage).
  - reflexivity.
  - reflexivity.
Defined.

Lemma identity_changes_only_on_Connected_witness :
  BotUserID (finalBot (Run sampleBot
                         [ MessageData sampleMessage;
                           ErrorData "*errors.errorString" "EOF";
                           MessageData selfMessage ]))
  = BotUserID sampleBot
  /\ BotUserName (finalBot (Run sampleBot
                              [ MessageData sampleMessage;
                                ErrorData "*errors.errorString" "EOF";
                                MessageData selfMessage ]))
     = BotUserName sampleBot.
Proof.
  apply (identity_changes_only_on_Connected sampleBot
           [ MessageData sampleMessage; ErrorData "*errors.errorString" "EOF";
             MessageData selfMessage ]).
  reflexivity.
Defined.

Lemma Type_sleeps_20ms_per_byte_up_to_cap_witness :
  Type_ textSyntax sampleBot sampleMessage (PString "A bit tired.")
  = [ SendTypingMessage (Channel sampleMessage);
      Sleep (Z.min (20 * Duration.Millisecond
                    * msgLen textSyntax (PString "A bit tired."))
               maxTypingSleepMs) ]
  /\ 0 <= Z.min (20 * Duration.Millisecond
                 * msgLen textSyntax (PString "A bit tired."))
            maxTypingSleepMs.
Proof.
  apply (Type_sleeps_20ms_per_byte_up_to_cap textSyntax sampleBot sampleMessage
           (PString "A bit tired.")).
  vm_compute. discriminate.
Defined.

Lemma cap_is_reached_at_100_bytes_witness :
  sleepDuration 100 = maxTypingSleepMs <-> 100 <= 100.
Proof.
  apply (cap_is_reached_at_100_bytes 100).
  - lia.
  - unfold maxExactLen. lia.
Defined.

Lemma posts_carry_connected_user_ID_witness :
  last (ReplyPost textSyntax
          (finalBot (Run freshBot ([] ++ ConnectedData sampleConnected
                                      :: [ MessageData sampleMessage ])))
          sampleMessage "hello" WithTyping)
       (Sleep 0)
  = PostMessage (Channel sampleMessage) (MsgOptionText "hello" false)
      {| AsUser := true; PostUsername := ID (InfoUser sampleConnected);
         LinkNames := 1; UnfurlLinks := true; UnfurlMedia := true |}
  /\ last (ReplyWithAttachments textSyntax
             (finalBot (Run freshBot ([] ++ ConnectedData sampleConnected
                                         :: [ MessageData sampleMessage ])))
             sampleMessage [ "pretext" ] WithTyping)
          (Sleep 0)
     = PostMessage (Channel sampleMessage) (MsgOptionAttachments [ "pretext" ])
         {| AsUser := true; PostUsername := ID (InfoUser sampleConnected);
            LinkNames := 1; UnfurlLinks := false; UnfurlMedia := false |}.
Proof.
  apply (posts_carry_connected_user_ID textSyntax freshBot []
           sampleConnected [ MessageData sampleMessage ] sampleMessage
           "hello" [ "pretext" ] WithTyping).
  - reflexivity.
  - reflexivity.
Defined.

Lemma Type_delay_monotone_below_overflow_witness :
  exists d1 d2,
    sleeps (Type_ textSyntax sampleBot sampleMessage (PString "hi")) = [ d1 ]
    /\ sleeps (Type_ textSyntax sampleBot sampleMessage
                 (PAttachments [ "pretext" ])) = [ d2 ]
    /\ 0 <= d1 <= d2.
Proof.
  apply (Type_delay_monotone_below_overflow textSyntax sampleBot sampleMessage
           (PString "hi") (PAttachments [ "pretext" ])).
  - vm_compute. discriminate.
  - vm_compute. discriminate.
Defined.
